(** * Units.hpp: physical-unit constants and the [from]/[to] conversions

    A shallow embedding of [grid/common/Units.hpp] (namespaces
    [Dune::prefix], [Dune::unit], [Dune::unit::convert] and [Dune::units]).

    Every constant of the header is a C++ [double] initialised by an
    arithmetic expression, so the embedding evaluates the same expressions
    in IEEE 754 binary64 with round-to-nearest-even, using the executable
    specification of floating-point arithmetic of the standard library
    ([SpecFloat], instantiated with a 53 bit significand and [emax = 1024]).
    Assumptions on the C++ implementation: [double] is binary64, expressions
    are evaluated without excess precision, and a decimal literal denotes the
    binary64 number nearest to it. *)

From Stdlib Require Import ZArith Bool List String Lia QArith Qabs.
From Stdlib Require Import Floats.SpecFloat.
Import ListNotations.

Local Open Scope Z_scope.

(** ** IEEE 754 binary64 *)

Definition double : Type := spec_float.

Module Double.

Definition prec : Z := 53.
Definition emax : Z := 1024.

Definition mul (x y : double) : double := SFmul prec emax x y.
Definition div (x y : double) : double := SFdiv prec emax x y.
Definition opp (x : double) : double := SFopp x.

(** The C++ comparison [x == y] on doubles: false as soon as one side is
    NaN, and [+0 == -0]. *)
Definition eqb (x y : double) : bool := SFeqb x y.

(** Well-formed binary64 values: a finite number carries its canonical
    significand and exponent. *)
Definition valid (x : double) : Prop := valid_binary prec emax x = true.

Definition is_nan (x : double) : bool :=
  match x with S754_nan => true | _ => false end.

Definition is_inf (x : double) : bool :=
  match x with S754_infinity _ => true | _ => false end.

Definition is_zero (x : double) : bool :=
  match x with S754_zero _ => true | _ => false end.

Definition is_finite (x : double) : bool :=
  match x with S754_zero _ | S754_finite _ _ _ => true | _ => false end.

(** A finite number that is strictly positive. *)
Definition is_pos_finite (x : double) : bool :=
  match x with S754_finite false _ _ => true | _ => false end.

(** The quotient [n / d] of two positive integers, rounded once to the
    nearest binary64 number. *)
Definition of_ratio (n d : positive) : double :=
  SFdiv prec emax (S754_finite false n 0) (S754_finite false d 0).

(** Conversion of a C++ integer to [double]. *)
Definition of_int (n : Z) : double := binary_normalize prec emax n 0 false.

(** A decimal floating literal: [digits] is the digit string of the literal
    read as an integer, [frac] the number of digits after the decimal point
    and [e10] the exponent part, so that the literal denotes
    [digits * 10 ^ (e10 - frac)]; [2.54] is [lit 254 2 0] and [1.0e-6] is
    [lit 10 1 (-6)]. *)
Definition lit_pos (m : positive) (frac : Z) (e10 : Z) : double :=
  match e10 - frac with
  | Z0 => of_ratio m 1
  | Zpos k => of_ratio (m * 10 ^ k) 1
  | Zneg k => of_ratio m (10 ^ k)
  end.

Definition lit (digits : Z) (frac : Z) (e10 : Z) : double :=
  match digits with
  | Z0 => S754_zero false
  | Zpos m => lit_pos m frac e10
  | Zneg m => opp (lit_pos m frac e10)
  end.

(** The number [1.0]. *)
Definition one : double := S754_finite false 4503599627370496 (-52).

(** [n] zero bits appended to the significand [m]. *)
Fixpoint shl_pos (m : positive) (n : nat) : positive :=
  match n with
  | O => m
  | S n' => xO (shl_pos m n')
  end.

(** The exact rational number that a decimal literal denotes. *)
Definition lit_Q (digits : Z) (frac : Z) (e10 : Z) : Q :=
  match (e10 - frac)%Z with
  | Z0 => inject_Z digits
  | Zpos k => inject_Z (digits * 10 ^ Zpos k)%Z
  | Zneg k => Qmake digits (10 ^ k)%positive
  end.

(** The rational number [2 ^ e]. *)
Definition pow2_Q (e : Z) : Q :=
  match e with
  | Z0 => 1%Q
  | Zpos k => inject_Z (Zpos (2 ^ k))
  | Zneg k => Qmake 1 (2 ^ k)
  end.

(** The exact rational value of a finite number. *)
Definition to_Q (x : double) : Q :=
  match x with
  | S754_finite s m e =>
      ((if s then inject_Z (Zneg m) else inject_Z (Zpos m)) * pow2_Q e)%Q
  | _ => 0%Q
  end.

(** The weight of the last bit of the significand of a finite number. *)
Definition ulp_Q (x : double) : Q :=
  match x with
  | S754_finite _ _ e => pow2_Q e
  | _ => 0%Q
  end.

(** [x] is a finite number at most half a unit in the last place away
    from the rational [r]. *)
Definition nearest (x : double) (r : Q) : bool :=
  is_finite x && Qle_bool (Qabs (to_Q x - r) * 2) (ulp_Q x).

(** The sign bit of a number ([true] for negative).  The model has a single
    NaN, which carries no sign: the value [false] returned for it is a
    convention and says nothing of the sign bit of a C++ NaN, so statements
    about signs exclude NaN. *)
Definition sign (x : double) : bool :=
  match x with
  | S754_zero s | S754_infinity s | S754_finite s _ _ => s
  | S754_nan => false
  end.

(** The two numbers are the same datum (unlike [eqb], this tells [+0] from
    [-0] and identifies NaN with itself). *)
Definition same (x y : double) : bool :=
  match x, y with
  | S754_zero s, S754_zero s' => Bool.eqb s s'
  | S754_infinity s, S754_infinity s' => Bool.eqb s s'
  | S754_nan, S754_nan => true
  | S754_finite s m e, S754_finite s' m' e' =>
      Bool.eqb s s' && Pos.eqb m m' && Z.eqb e e'
  | _, _ => false
  end.

(** The double of the whole number [a] (negated when [s] is set), for
    [a < 2 ^ 53]: the significand is [a] shifted to 53 bits. *)
Definition of_pos (s : bool) (a : positive) : double :=
  S754_finite s
    (shl_pos a (Z.to_nat (53 - Zpos (digits2_pos a))))
    (Zpos (digits2_pos a) - 53).

(** The distance from the finite number [x] to the rational [r] is at most
    [k] units in the last place of [x]. *)
Definition within_ulps (k : Q) (x : double) (r : Q) : bool :=
  is_finite x && Qle_bool (Qabs (to_Q x - r)) (k * ulp_Q x).

End Double.

(** ** Arithmetic of a template parameter

    The function templates of the header only need [operator*] and
    [operator/] of their type parameter [T]. *)

Class Numeric (T : Type) : Type := {
  num_mul : T -> T -> T;
  num_div : T -> T -> T
}.

Declare Scope num_scope.
Delimit Scope num_scope with num.
Infix "*" := num_mul : num_scope.
Infix "/" := num_div : num_scope.

#[global] Instance Numeric_double : Numeric double := {|
  num_mul := Double.mul;
  num_div := Double.div
|}.

Module Dune.

Local Open Scope num_scope.

Module prefix.
Definition micro : double := Double.lit 10 1 (-6).
Definition milli : double := Double.lit 10 1 (-3).
Definition centi : double := Double.lit 10 1 (-2).
Definition deci  : double := Double.lit 10 1 (-1).
Definition kilo  : double := Double.lit 10 1 3.
Definition mega  : double := Double.lit 10 1 6.
Definition giga  : double := Double.lit 10 1 9.
End prefix.

Module unit.

(** Common powers *)
Definition square {T : Type} `{Numeric T} (v : T) : T := v * v.
Definition cubic {T : Type} `{Numeric T} (v : T) : T := v * v * v.

(** Length *)
Definition meter : double := Double.of_int 1.
Definition inch : double := Double.lit 254 2 0 * prefix.centi * meter.
Definition feet : double := Double.of_int 12 * inch.

(** Time *)
Definition second : double := Double.of_int 1.
Definition minute : double := Double.of_int 60 * second.
Definition hour : double := Double.of_int 60 * minute.
Definition day : double := Double.of_int 24 * hour.
Definition year : double := Double.of_int 365 * day.

(** Mass *)
Definition kilogram : double := Double.of_int 1.
Definition pound : double := Double.lit 45359237 8 0 * kilogram.

(** Standardised constants *)
Definition gravity : double :=
  Double.lit 980665 5 0 * meter / square second.

(** Force *)
Definition Newton : double := kilogram * meter / square second.
Definition lbf : double := pound * gravity.

(** Pressure *)
Definition Pascal : double := Newton / square meter.
Definition barsa : double := Double.of_int 100000 * Pascal.
Definition atm : double := Double.of_int 101325 * Pascal.
Definition psia : double := lbf / square inch.

(** Viscosity *)
Definition Pas : double := Pascal * second.
Definition Poise : double := prefix.deci * Pas.

(** Permeability: the constants of the anonymous namespace, then
    [darcy]. *)
Definition p_grad : double := atm / (prefix.centi * meter).
Definition area : double := square (prefix.centi * meter).
Definition flux : double := cubic (prefix.centi * meter) / second.
Definition velocity : double := flux / area.
Definition visc : double := prefix.centi * Poise.

Definition darcy : double := (velocity * visc) / p_grad.

Module convert.
Definition from {T : Type} `{Numeric T} (q unit : T) : T := q * unit.
Definition to {T : Type} `{Numeric T} (q unit : T) : T := q / unit.
End convert.

End unit.

Module units.
Definition MILLIDARCY : double := Double.lit 986923 5 (-16).
Definition VISCOSITY_UNIT : double := Double.lit 1 0 (-3).
Definition DAYS2SECONDS : double := Double.of_int 86400.
Definition FEET : double := Double.lit 30479999798832 14 0.
Definition WELL_INDEX_UNIT : double :=
  VISCOSITY_UNIT / (DAYS2SECONDS * Double.lit 1 0 5).
End units.

End Dune.

Import Dune.


(** ** The constant table *)

Local Open Scope string_scope.

Definition prefix_table : list (string * double) :=
  [ ("micro", prefix.micro); ("milli", prefix.milli); ("centi", prefix.centi);
    ("deci", prefix.deci); ("kilo", prefix.kilo); ("mega", prefix.mega);
    ("giga", prefix.giga) ].

Definition unit_table : list (string * double) :=
  [ ("meter", unit.meter); ("inch", unit.inch); ("feet", unit.feet);
    ("second", unit.second); ("minute", unit.minute); ("hour", unit.hour);
    ("day", unit.day); ("year", unit.year);
    ("kilogram", unit.kilogram); ("pound", unit.pound);
    ("gravity", unit.gravity);
    ("Newton", unit.Newton); ("lbf", unit.lbf);
    ("Pascal", unit.Pascal); ("barsa", unit.barsa); ("atm", unit.atm);
    ("psia", unit.psia);
    ("Pas", unit.Pas); ("Poise", unit.Poise);
    ("darcy", unit.darcy) ].

(** The constants of the anonymous namespace inside [Dune::unit]. *)
Definition scratch_table : list (string * double) :=
  [ ("p_grad", unit.p_grad); ("area", unit.area); ("flux", unit.flux);
    ("velocity", unit.velocity); ("visc", unit.visc) ].

(** Every constant of [Dune::prefix] and [Dune::unit]. *)
Definition table : list (string * double) :=
  prefix_table ++ unit_table ++ scratch_table.

(** The constants of the second group, [Dune::units]. *)
Definition units_table : list (string * double) :=
  [ ("MILLIDARCY", units.MILLIDARCY);
    ("VISCOSITY_UNIT", units.VISCOSITY_UNIT);
    ("DAYS2SECONDS", units.DAYS2SECONDS);
    ("FEET", units.FEET);
    ("WELL_INDEX_UNIT", units.WELL_INDEX_UNIT) ].

(** The decimal literals of the header, as (digits, digits after the
    point, exponent), and its integer literals. *)
Definition header_literals : list (Z * Z * Z) :=
  [ (10, 1, -6); (10, 1, -3); (10, 1, -2); (10, 1, -1);
    (10, 1, 3); (10, 1, 6); (10, 1, 9);
    (254, 2, 0); (45359237, 8, 0); (980665, 5, 0);
    (986923, 5, -16); (1, 0, -3); (30479999798832, 14, 0); (1, 0, 5) ]%Z.

Definition header_integers : list Z :=
  [ 1; 12; 60; 24; 365; 100000; 101325; 86400 ]%Z.

(** [to(from(q, u), u) == q], with the comparison of C++. *)
Definition round_trip (q u : double) : bool :=
  Double.eqb (unit.convert.to (unit.convert.from q u) u) q.

(** The quantities [0.0], [1.0], [-1.0], [1e6] and [1e-6]. *)
Definition representatives : list double :=
  [ Double.lit 0 1 0; Double.lit 10 1 0; Double.opp (Double.lit 10 1 0);
    Double.lit 1 0 6; Double.lit 1 0 (-6) ].

(** Names of the entries of a table that fail the round trip at [q]. *)
Definition round_trip_failures (q : double) (t : list (string * double))
  : list string :=
  map fst (filter (fun nu => negb (round_trip q (snd nu))) t).

(** ** The header in exact arithmetic

    The defining expressions of the header, written once for any type that
    has the two operations and the literals, so that the same expressions
    can be evaluated in binary64 and in exact rational arithmetic. *)

Class Literal (T : Type) : Type := {
  num_lit : Z -> Z -> Z -> T;
  num_int : Z -> T
}.

#[global] Instance Literal_double : Literal double := {|
  num_lit := Double.lit;
  num_int := Double.of_int
|}.

#[global] Instance Numeric_Q : Numeric Q := {|
  num_mul := Qmult;
  num_div := Qdiv
|}.

#[global] Instance Literal_Q : Literal Q := {|
  num_lit := Double.lit_Q;
  num_int := inject_Z
|}.

Definition header_table (T : Type) `{Numeric T} `{Literal T}
  : list (string * T) :=
  let micro := num_lit 10 1 (-6) in
  let milli := num_lit 10 1 (-3) in
  let centi := num_lit 10 1 (-2) in
  let deci := num_lit 10 1 (-1) in
  let kilo := num_lit 10 1 3 in
  let mega := num_lit 10 1 6 in
  let giga := num_lit 10 1 9 in
  let meter := num_int 1 in
  let inch := (num_lit 254 2 0 * centi * meter)%num in
  let feet := (num_int 12 * inch)%num in
  let second := num_int 1 in
  let minute := (num_int 60 * second)%num in
  let hour := (num_int 60 * minute)%num in
  let day := (num_int 24 * hour)%num in
  let year := (num_int 365 * day)%num in
  let kilogram := num_int 1 in
  let pound := (num_lit 45359237 8 0 * kilogram)%num in
  let gravity := (num_lit 980665 5 0 * meter / unit.square second)%num in
  let Newton := (kilogram * meter / unit.square second)%num in
  let lbf := (pound * gravity)%num in
  let Pascal := (Newton / unit.square meter)%num in
  let barsa := (num_int 100000 * Pascal)%num in
  let atm := (num_int 101325 * Pascal)%num in
  let psia := (lbf / unit.square inch)%num in
  let Pas := (Pascal * second)%num in
  let Poise := (deci * Pas)%num in
  let p_grad := (atm / (centi * meter))%num in
  let area := unit.square (centi * meter)%num in
  let flux := (unit.cubic (centi * meter) / second)%num in
  let velocity := (flux / area)%num in
  let visc := (centi * Poise)%num in
  let darcy := ((velocity * visc) / p_grad)%num in
  [ ("micro", micro); ("milli", milli); ("centi", centi); ("deci", deci);
    ("kilo", kilo); ("mega", mega); ("giga", giga);
    ("meter", meter); ("inch", inch); ("feet", feet);
    ("second", second); ("minute", minute); ("hour", hour); ("day", day);
    ("year", year);
    ("kilogram", kilogram); ("pound", pound);
    ("gravity", gravity);
    ("Newton", Newton); ("lbf", lbf);
    ("Pascal", Pascal); ("barsa", barsa); ("atm", atm); ("psia", psia);
    ("Pas", Pas); ("Poise", Poise);
    ("darcy", darcy);
    ("p_grad", p_grad); ("area", area); ("flux", flux);
    ("velocity", velocity); ("visc", visc) ].

(** Names of the rows of two tables, taken side by side, whose values
    satisfy [p]. *)
Definition rows_where {A B : Type} (p : A -> B -> bool)
  (t : list (string * A)) (t' : list (string * B)) : list string :=
  map (fun r => fst (fst r))
      (filter (fun r => p (snd (fst r)) (snd (snd r))) (combine t t')).

(** [from(to(q, u), u) == q], with the comparison of C++. *)
Definition round_trip_back (q u : double) : bool :=
  Double.eqb (unit.convert.from (unit.convert.to q u) u) q.

Definition round_trip_back_failures (q : double)
  (t : list (string * double)) : list string :=
  map fst (filter (fun nu => negb (round_trip_back q (snd nu))) t).

(** The constants of the table whose value is a whole number. *)
Definition integer_units : list (string * Z) :=
  [ ("kilo", 1000); ("mega", 1000000); ("giga", 1000000000);
    ("meter", 1); ("second", 1); ("minute", 60); ("hour", 3600);
    ("day", 86400); ("year", 31536000); ("kilogram", 1);
    ("Newton", 1); ("Pascal", 1); ("barsa", 100000); ("atm", 101325);
    ("Pas", 1); ("p_grad", 10132500) ]%Z.

(** The row [name] of the table [t] holds the datum [x]. *)
Definition has_row (t : list (string * double)) (name : string) (x : double)
  : bool :=
  existsb (fun nu => String.eqb (fst nu) name && Double.same (snd nu) x) t.

(** The value of the row [name] of a table. *)
Definition value_of {A : Type} (name : string) (t : list (string * A))
  : option A :=
  option_map snd (find (fun r => String.eqb (fst r) name) t).

(** The constants of [Dune::prefix] with the power of ten they stand for. *)
Definition prefix_powers : list (string * Z * double) :=
  [ ("micro", -6, prefix.micro); ("milli", -3, prefix.milli);
    ("centi", -2, prefix.centi); ("deci", -1, prefix.deci);
    ("kilo", 3, prefix.kilo); ("mega", 6, prefix.mega);
    ("giga", 9, prefix.giga) ]%Z.

(** The double that the header provides for [10 ^ e]: a prefix, or [1.0]
    for [e = 0]. *)
Definition power_of_ten (e : Z) : option double :=
  if Z.eqb e 0 then Some (Double.lit 10 1 0)
  else option_map snd
         (find (fun p => Z.eqb (snd (fst p)) e) prefix_powers).

(** The pairs of prefixes [(p1, p2)] for which the header has a constant
    for the power of ten that [op p1 p2] should be (exponent [ope e1 e2]),
    and [op p1 p2] does not compare equal to it. *)
Definition prefix_mismatches
  (op : double -> double -> double) (ope : Z -> Z -> Z)
  : list (string * string) :=
  flat_map
    (fun p1 =>
       flat_map
         (fun p2 =>
            match power_of_ten (ope (snd (fst p1)) (snd (fst p2))) with
            | Some p3 =>
                if Double.eqb (op (snd p1) (snd p2)) p3 then []
                else [ (fst (fst p1), fst (fst p2)) ]
            | None => []
            end)
         prefix_powers)
    prefix_powers.

(** The names of the constants of the table that are the double [1.0]. *)
Definition unit_valued : list string :=
  [ "meter"; "second"; "kilogram"; "Newton"; "Pascal"; "Pas" ].


(** * Properties *)

Local Open Scope Z_scope.

(** ** Rounding never produces a NaN *)

Section Rounding.

Lemma iter_pos_preserves {A : Type} (P : A -> Prop) (f : A -> A) :
  (forall x, P x -> P (f x)) ->
  forall (n : positive) (x : A), P x -> P (iter_pos f n x).
Proof.
  intros Hf n. induction n as [n IH | n IH | ]; intros x Hx; simpl.
  - apply IH, IH, Hf, Hx.
  - apply IH, IH, Hx.
  - apply Hf, Hx.
Qed.

Lemma shr_1_nonneg (mrs : shr_record) :
  0 <= shr_m mrs -> 0 <= shr_m (shr_1 mrs).
Proof.
  destruct mrs as [m r s]. simpl.
  destruct m as [ | [p | p | ] | p ]; simpl; lia.
Qed.

Lemma shr_nonneg (mrs : shr_record) (e n : Z) :
  0 <= shr_m mrs -> 0 <= shr_m (fst (shr mrs e n)).
Proof.
  intros H. destruct n as [ | p | p ]; simpl; trivial.
  apply (iter_pos_preserves (fun r => 0 <= shr_m r)); trivial.
  exact shr_1_nonneg.
Qed.

Lemma shr_record_of_loc_m (m : Z) (l : location) :
  shr_m (shr_record_of_loc m l) = m.
Proof. destruct l as [ | [ | | ] ]; reflexivity. Qed.

Lemma shr_fexp_nonneg (m e : Z) (l : location) :
  0 <= m ->
  0 <= shr_m (fst (shr_fexp Double.prec Double.emax m e l)).
Proof.
  intros H. unfold shr_fexp. apply shr_nonneg.
  now rewrite shr_record_of_loc_m.
Qed.

Lemma round_nearest_even_nonneg (m : Z) (l : location) :
  0 <= m -> 0 <= round_nearest_even m l.
Proof.
  intros H. destruct l as [ | [ | | ] ]; simpl; try lia.
  destruct (Z.even m); lia.
Qed.

Lemma binary_round_aux_not_nan (s : bool) (m e : Z) (l : location) :
  0 <= m ->
  Double.is_nan (binary_round_aux Double.prec Double.emax s m e l) = false.
Proof.
  intros H. unfold binary_round_aux.
  pose proof (shr_fexp_nonneg m e l H) as H1.
  destruct (shr_fexp Double.prec Double.emax m e l) as [mrs1 e1].
  simpl in H1.
  pose proof (shr_fexp_nonneg
                (round_nearest_even (shr_m mrs1) (loc_of_shr_record mrs1))
                e1 loc_Exact
                (round_nearest_even_nonneg _ _ H1)) as H2.
  destruct (shr_fexp Double.prec Double.emax _ e1 loc_Exact) as [mrs2 e2].
  simpl in H2.
  destruct (shr_m mrs2) as [ | p | p ]; try reflexivity.
  - destruct (e2 <=? Double.emax - Double.prec); reflexivity.
  - lia.
Qed.

Lemma div_core_nonneg (m1 m2 : positive) (e1 e2 : Z) :
  0 <= fst (fst (SFdiv_core_binary Double.prec Double.emax
                   (Zpos m1) e1 (Zpos m2) e2)).
Proof.
  unfold SFdiv_core_binary.
  set (s := _ - _ - _).
  set (m' := match s with Z0 => _ | Zpos _ => _ | Zneg _ => _ end).
  assert (Hm' : 0 <= m').
  { subst m'. destruct s; try lia. apply Z.shiftl_nonneg. lia. }
  pose proof (Z_div_mod m' (Zpos m2) eq_refl) as Hd.
  destruct (Z.div_eucl m' (Zpos m2)) as [q r]. simpl. nia.
Qed.

(** A quotient is a NaN only if an operand is a NaN, or both operands are
    zero, or both are infinite. *)
Lemma div_nan_inv (x y : double) :
  Double.is_nan (Double.div x y) = true ->
  Double.is_nan x = true \/ Double.is_nan y = true \/
  (Double.is_zero x = true /\ Double.is_zero y = true) \/
  (Double.is_inf x = true /\ Double.is_inf y = true).
Proof.
  destruct x as [sx | sx | | sx mx ex], y as [sy | sy | | sy my ey];
    simpl; auto; try discriminate.
  intros H. exfalso.
  pose proof (div_core_nonneg mx my ex ey) as Hq.
  destruct (SFdiv_core_binary Double.prec Double.emax
              (Zpos mx) ex (Zpos my) ey) as [[mz ez] lz].
  simpl in Hq.
  rewrite (binary_round_aux_not_nan _ _ _ _ Hq) in H. discriminate.
Qed.

End Rounding.

(** ** Rounding a representable value returns it *)

Section Exact.

Lemma iter_pos_nat {A : Type} (f : A -> A) (p : positive) (x : A) :
  iter_pos f p x = Nat.iter (Pos.to_nat p) f x.
Proof.
  revert x. induction p as [p IH | p IH | ]; intros x; cbn [iter_pos].
  - rewrite !IH, Pos2Nat.inj_xI, <- Nat.iter_succ_r, <- Nat.iter_add.
    f_equal. lia.
  - rewrite !IH, Pos2Nat.inj_xO, <- Nat.iter_add.
    f_equal. lia.
  - reflexivity.
Qed.

Lemma shl_pos_spec (m : positive) (n : nat) :
  Zpos (Double.shl_pos m n) = Zpos m * 2 ^ Z.of_nat n.
Proof.
  induction n as [ | n IH ].
  - simpl. lia.
  - rewrite Nat2Z.inj_succ, Z.pow_succ_r by lia.
    cbn [Double.shl_pos]. rewrite Pos2Z.inj_xO, IH. ring.
Qed.

Lemma digits2_shl_pos (m : positive) (n : nat) :
  Zpos (digits2_pos (Double.shl_pos m n))
  = Zpos (digits2_pos m) + Z.of_nat n.
Proof.
  induction n as [ | n IH ].
  - simpl. lia.
  - cbn [Double.shl_pos digits2_pos].
    rewrite Pos2Z.inj_succ, IH. lia.
Qed.

Lemma shr_shl_pos (m : positive) (n : nat) :
  Nat.iter n shr_1
    (Build_shr_record (Zpos (Double.shl_pos m n)) false false)
  = Build_shr_record (Zpos m) false false.
Proof.
  induction n as [ | n IH ].
  - reflexivity.
  - rewrite Nat.iter_succ_r. exact IH.
Qed.

Lemma round_shl_pos (s : bool) (m : positive) (e : Z) (n : nat) :
  bounded Double.prec Double.emax m e = true ->
  binary_round_aux Double.prec Double.emax s
    (Zpos (Double.shl_pos m n)) (e - Z.of_nat n) loc_Exact
  = S754_finite s m e.
Proof.
  unfold bounded, canonical_mantissa.
  intros H. apply andb_true_iff in H. destruct H as [Hc He].
  apply Z.eqb_eq in Hc.
  unfold binary_round_aux.
  assert (H1 : shr_fexp Double.prec Double.emax
                 (Zpos (Double.shl_pos m n)) (e - Z.of_nat n) loc_Exact
               = (Build_shr_record (Zpos m) false false, e)).
  { unfold shr_fexp. simpl Zdigits2. rewrite digits2_shl_pos.
    replace (Zpos (digits2_pos m) + Z.of_nat n + (e - Z.of_nat n))
      with (Zpos (digits2_pos m) + e) by ring.
    rewrite Hc.
    replace (e - (e - Z.of_nat n)) with (Z.of_nat n) by ring.
    destruct n as [ | n ].
    - simpl. f_equal. lia.
    - simpl Z.of_nat. unfold shr.
      rewrite iter_pos_nat, SuccNat2Pos.id_succ.
      cbn [shr_record_of_loc]. rewrite shr_shl_pos.
      f_equal. lia. }
  rewrite H1. simpl shr_m. simpl loc_of_shr_record.
  simpl round_nearest_even.
  assert (H2 : shr_fexp Double.prec Double.emax (Zpos m) e loc_Exact
               = (Build_shr_record (Zpos m) false false, e)).
  { unfold shr_fexp. simpl Zdigits2. rewrite Hc, Z.sub_diag. reflexivity. }
  rewrite H2. simpl shr_m. rewrite He. reflexivity.
Qed.

Lemma div_eucl_mul (a b : Z) :
  0 < b -> Z.div_eucl (a * b) b = (a, 0).
Proof.
  intros Hb.
  assert (H : Z.div_eucl (a * b) b = ((a * b) / b, (a * b) mod b)).
  { unfold Z.div, Z.modulo. destruct (Z.div_eucl (a * b) b). reflexivity. }
  rewrite H, Z.div_mul, Z.mod_mul by lia. reflexivity.
Qed.

(** Dividing a canonical significand by that of [1.0] is exact; the
    quotient carries at most one extra zero bit. *)
Lemma div_core_one (m : positive) (e : Z) :
  bounded Double.prec Double.emax m e = true ->
  exists n : nat,
    SFdiv_core_binary Double.prec Double.emax
      (Zpos m) e 4503599627370496 (-52)
    = (Zpos (Double.shl_pos m n), e - Z.of_nat n, loc_Exact).
Proof.
  unfold bounded, canonical_mantissa.
  intros H. apply andb_true_iff in H. destruct H as [Hc _].
  apply Z.eqb_eq in Hc.
  unfold SFdiv_core_binary.
  change (Zdigits2 (Zpos m)) with (Zpos (digits2_pos m)).
  change (Zdigits2 4503599627370496) with 53.
  set (e' := Z.min _ _).
  assert (He' : e' = e \/ e' = e - 1).
  { subst e'. unfold fexp, emin, Double.prec, Double.emax in *. lia. }
  destruct He' as [He' | He']; rewrite He'.
  - exists 0%nat.
    replace (e - -52 - e) with 52 by lia. cbv iota.
    rewrite Z.shiftl_mul_pow2 by lia.
    rewrite div_eucl_mul by lia.
    cbn [Double.shl_pos Z.of_nat]. rewrite Z.sub_0_r. reflexivity.
  - exists 1%nat.
    replace (e - -52 - (e - 1)) with 53 by lia. cbv iota.
    rewrite Z.shiftl_mul_pow2 by lia.
    replace (Zpos m * 2 ^ 53) with (Zpos m~0 * 2 ^ 52) by lia.
    rewrite div_eucl_mul by lia.
    reflexivity.
Qed.

Lemma mul_one_r (x : double) :
  Double.valid x -> Double.mul x Double.one = x.
Proof.
  unfold Double.valid, Double.mul, Double.one.
  destruct x as [s | s | | s m e]; intros Hv; cbn [SFmul valid_binary] in *;
    rewrite ?xorb_false_r; try reflexivity.
  replace (m * 4503599627370496)%positive with (Double.shl_pos m 52)
    by (apply Pos2Z.inj; rewrite shl_pos_spec; reflexivity).
  apply (round_shl_pos s m e 52 Hv).
Qed.

Lemma div_one_r (x : double) :
  Double.valid x -> Double.div x Double.one = x.
Proof.
  unfold Double.valid, Double.div, Double.one.
  destruct x as [s | s | | s m e]; intros Hv; cbn [SFdiv valid_binary] in *;
    rewrite ?xorb_false_r; try reflexivity.
  destruct (div_core_one m e Hv) as [n Hn]. rewrite Hn.
  apply round_shl_pos, Hv.
Qed.

(** [==] is reflexive away from NaN. *)
Lemma eqb_refl (x : double) :
  Double.is_nan x = false -> Double.eqb x x = true.
Proof.
  unfold Double.eqb, SFeqb.
  destruct x as [s | s | | s m e]; simpl; try discriminate; intros _.
  - reflexivity.
  - destruct s; reflexivity.
  - destruct s; rewrite Z.compare_refl, Pos.compare_cont_refl; reflexivity.
Qed.

End Exact.

(** ** The literals and the table are well formed *)

Local Open Scope string_scope.

Ltac by_computation := vm_compute; reflexivity.

Ltac in_table :=
  cbv [table prefix_table unit_table scratch_table units_table
       representatives app In]; tauto.

Lemma Forall_forallb {A : Type} (f : A -> bool) (l : list A) :
  forallb f l = true -> Forall (fun x => f x = true) l.
Proof.
  intros H. apply Forall_forall. intros x Hx.
  exact (proj1 (forallb_forall f l) H x Hx).
Qed.

(** The embedding of literals agrees with the binary64 encodings of the
    same decimal numbers (significand and exponent of the hexadecimal
    notation [0x1.47ae147ae147bp-7] for [1.0e-2], and so on). *)
Lemma literal_encodings :
  prefix.centi = S754_finite false 0x147ae147ae147b (-7 - 52) /\
  prefix.micro = S754_finite false 0x10c6f7a0b5ed8d (-20 - 52) /\
  prefix.giga = S754_finite false 0x1dcd6500000000 (29 - 52) /\
  Double.lit 254 2 0 = S754_finite false 0x1451eb851eb852 (1 - 52) /\
  Double.lit 45359237 8 0 = S754_finite false 0x1d07a84ab75e51 (-2 - 52) /\
  Double.lit 980665 5 0 = S754_finite false 0x139d013a92a305 (3 - 52) /\
  units.FEET = S754_finite false 0x1381d7d9cb9098 (-2 - 52) /\
  units.MILLIDARCY = S754_finite false 0x11c761062afa53 (-50 - 52) /\
  Double.of_int 1 = Double.one /\
  Double.lit 10 1 0 = Double.one /\
  Double.of_int 101325 = S754_finite false 0x18bcd000000000 (16 - 52).
Proof.
  do 10 (split; [ by_computation | ]). by_computation.
Qed.

(** Every decimal literal of the header is embedded as a double within half
    a unit in the last place of the decimal number it denotes, and every
    integer literal as the double of the same value. *)
Lemma header_literals_nearest :
  forallb (fun l => match l with
                    | (d, f, e) =>
                        Double.nearest (Double.lit d f e) (Double.lit_Q d f e)
                    end) header_literals = true /\
  forallb (fun n => Qeq_bool (Double.to_Q (Double.of_int n)) (inject_Z n))
          header_integers = true.
Proof. split; by_computation. Qed.

Lemma table_valid :
  Forall (fun nu => Double.valid (snd nu)) (table ++ units_table).
Proof.
  apply (Forall_forallb
           (fun nu => valid_binary Double.prec Double.emax (snd nu))).
  by_computation.
Qed.

Lemma table_pos_finite :
  Forall (fun nu => Double.is_pos_finite (snd nu) = true)
         (table ++ units_table).
Proof. apply Forall_forallb. by_computation. Qed.

(** ** Conversion by a unit equal to [1.0] *)

Lemma eqb_one_inv (u : double) :
  Double.eqb u Double.one = true -> u = Double.one.
Proof.
  unfold Double.eqb, SFeqb, SFcompare, Double.one.
  destruct u as [s | s | | s m e]; try (intros H; discriminate H).
  - destruct s; intros H; discriminate H.
  - destruct s; try (intros H; discriminate H).
    destruct (Z.compare_spec e (-52)) as [He | He | He];
      try (intros H; discriminate H).
    destruct (Pos.compare_cont Eq m 4503599627370496) eqn:Hm;
      try (intros H; discriminate H).
    intros _. apply Pos.compare_eq in Hm. subst. reflexivity.
Qed.

Lemma from_one (q : double) :
  Double.valid q -> unit.convert.from q Double.one = q.
Proof. exact (mul_one_r q). Qed.

Lemma to_one (q : double) :
  Double.valid q -> unit.convert.to q Double.one = q.
Proof. exact (div_one_r q). Qed.

Lemma round_trip_one (q : double) :
  Double.valid q -> Double.is_nan q = false ->
  round_trip q Double.one = true.
Proof.
  intros Hv Hn. unfold round_trip.
  rewrite (from_one q Hv), (to_one q Hv). apply eqb_refl, Hn.
Qed.

(** A product is a NaN only if a factor is a NaN, or one factor is zero and
    the other infinite. *)
Lemma mul_nan_inv (x y : double) :
  Double.is_nan (Double.mul x y) = true ->
  Double.is_nan x = true \/ Double.is_nan y = true \/
  (Double.is_inf x = true /\ Double.is_zero y = true) \/
  (Double.is_zero x = true /\ Double.is_inf y = true).
Proof.
  unfold Double.mul.
  destruct x as [sx | sx | | sx mx ex], y as [sy | sy | | sy my ey];
    cbn [SFmul Double.is_nan Double.is_inf Double.is_zero];
    auto; try discriminate.
  rewrite binary_round_aux_not_nan by lia. discriminate.
Qed.

Lemma mul_self_nan (v : double) :
  Double.is_nan (Double.mul v v) = Double.is_nan v.
Proof.
  unfold Double.mul.
  destruct v as [s | s | | s m e]; cbn [SFmul Double.is_nan];
    try reflexivity.
  apply binary_round_aux_not_nan. lia.
Qed.

Lemma mul_self_zero_inf (v : double) :
  (Double.is_zero v = true -> Double.is_zero (Double.mul v v) = true) /\
  (Double.is_inf v = true -> Double.is_inf (Double.mul v v) = true).
Proof.
  unfold Double.mul.
  destruct v as [s | s | | s m e];
    cbn [SFmul Double.is_zero Double.is_inf]; split;
    solve [ reflexivity | discriminate ].
Qed.

Lemma cubic_nan (v : double) :
  Double.is_nan (Double.mul (Double.mul v v) v) = Double.is_nan v.
Proof.
  destruct (Double.is_nan v) eqn:Hv.
  - destruct v; try discriminate Hv. reflexivity.
  - destruct (Double.is_nan (Double.mul (Double.mul v v) v)) eqn:E;
      [ | reflexivity ].
    apply mul_nan_inv in E. rewrite mul_self_nan in E.
    destruct (mul_self_zero_inf v) as [Hz Hi].
    destruct E as [E | [E | [[E1 E2] | [E1 E2]]]]; try congruence.
    + apply Hz in E2. destruct (Double.mul v v); discriminate.
    + apply Hi in E2. destruct (Double.mul v v); discriminate.
Qed.

(** [x == x] fails exactly on NaN. *)
Lemma eqb_self (x : double) :
  Double.eqb x x = negb (Double.is_nan x).
Proof.
  destruct (Double.is_nan x) eqn:Hx.
  - destruct x; try discriminate Hx. reflexivity.
  - apply eqb_refl, Hx.
Qed.

(** ** The claims *)

(** C1 (as stated, refuted): [1e6] is one of the representative quantities
    and [pound] a constant of the table, but converting [1e6] from pounds
    and back does not return [1e6]: the product [1e6 * pound] is rounded,
    and the quotient lands one unit in the last place below [1e6]. *)
Lemma round_trip_fails_at_pound :
  In ("pound", unit.pound) table /\
  In (Double.lit 1 0 6) representatives /\
  round_trip (Double.lit 1 0 6) unit.pound = false /\
  Double.lit 1 0 6 = S754_finite false 8589934592000000 (-33) /\
  unit.convert.to (unit.convert.from (Double.lit 1 0 6) unit.pound)
                  unit.pound
  = S754_finite false 8589934591999999 (-33).
Proof.
  split; [ in_table | ].
  split; [ in_table | ].
  split; [ by_computation | ].
  split; by_computation.
Qed.

(** C1 (amended): for every constant [u] of the table (and of the second
    group) and [q] among [0.0], [1.0], [-1.0] and [1e-6],
    [to(from(q, u), u) == q]; at [q = 1e6] the round trip holds for every
    constant except [pound] and [gravity] (and [MILLIDARCY] in the second
    group), where the result is one unit in the last place away from [q]
    (the double just below [1e6] for [pound] and [MILLIDARCY], the double
    just above it for [gravity]); and for a unit equal to [1.0] (in the
    table: [meter], [second], [kilogram], [Newton], [Pascal], [Pas]) it
    holds for every quantity [q] that is not a NaN. *)
Theorem round_trip_table :
  Forall (fun nu =>
            Forall (fun q => round_trip q (snd nu) = true)
                   [ Double.lit 0 1 0; Double.lit 10 1 0;
                     Double.opp (Double.lit 10 1 0); Double.lit 1 0 (-6) ])
         (table ++ units_table) /\
  round_trip_failures (Double.lit 1 0 6) table = [ "pound"; "gravity" ] /\
  round_trip_failures (Double.lit 1 0 6) units_table = [ "MILLIDARCY" ] /\
  Double.lit 1 0 6 = S754_finite false 8589934592000000 (-33) /\
  unit.convert.to (unit.convert.from (Double.lit 1 0 6) unit.pound)
                  unit.pound
  = S754_finite false 8589934591999999 (-33) /\
  unit.convert.to (unit.convert.from (Double.lit 1 0 6) unit.gravity)
                  unit.gravity
  = S754_finite false 8589934592000001 (-33) /\
  unit.convert.to (unit.convert.from (Double.lit 1 0 6) units.MILLIDARCY)
                  units.MILLIDARCY
  = S754_finite false 8589934591999999 (-33) /\
  unit.convert.to (unit.convert.from (Double.lit 1 0 6) unit.pound)
                  unit.pound
  = SFpred Double.prec Double.emax (Double.lit 1 0 6) /\
  unit.convert.to (unit.convert.from (Double.lit 1 0 6) unit.gravity)
                  unit.gravity
  = SFsucc Double.prec Double.emax (Double.lit 1 0 6) /\
  unit.convert.to (unit.convert.from (Double.lit 1 0 6) units.MILLIDARCY)
                  units.MILLIDARCY
  = SFpred Double.prec Double.emax (Double.lit 1 0 6) /\
  map fst (filter (fun nu => Double.eqb (snd nu) Double.one) table)
  = [ "meter"; "second"; "kilogram"; "Newton"; "Pascal"; "Pas" ] /\
  (forall u q : double,
      Double.eqb u Double.one = true ->
      Double.valid q -> Double.is_nan q = false ->
      round_trip q u = true).
Proof.
  split.
  { apply Forall_forall. intros nu Hnu. apply Forall_forallb.
    revert nu Hnu. apply forallb_forall. by_computation. }
  do 10 (split; [ by_computation | ]).
  intros u q Hu Hv Hq. apply eqb_one_inv in Hu. subst u.
  apply round_trip_one; assumption.
Qed.

Lemma round_trip_table_witness :
  round_trip (Double.lit 254 2 0) unit.Newton = true.
Proof.
  apply round_trip_table.
  - vm_compute. reflexivity.
  - vm_compute. reflexivity.
  - vm_compute. reflexivity.
Defined.

(** C2: [darcy], computed through the five scratch constants [p_grad],
    [area], [flux], [velocity] and [visc] as
    [(velocity * visc) / p_grad], is the binary64 number nearest to
    [9.869232667160130e-13], at most half a unit in the last place away
    from it; its exact value differs from that decimal by less than [1e-12]
    of it (12 significant digits), and in fact by less than [1e-15] of
    it. *)
Theorem darcy_value :
  Double.eqb unit.p_grad
    (unit.atm / (prefix.centi * unit.meter))%num = true /\
  Double.eqb unit.area (unit.square (prefix.centi * unit.meter))%num = true /\
  Double.eqb unit.flux
    (unit.cubic (prefix.centi * unit.meter) / unit.second)%num = true /\
  Double.eqb unit.velocity (unit.flux / unit.area)%num = true /\
  Double.eqb unit.visc (prefix.centi * unit.Poise)%num = true /\
  Double.eqb unit.darcy
    ((unit.velocity * unit.visc) / unit.p_grad)%num = true /\
  unit.darcy = Double.lit 9869232667160130 15 (-13) /\
  Double.eqb unit.darcy (Double.lit 9869232667160130 15 (-13)) = true /\
  Double.nearest unit.darcy (Double.lit_Q 9869232667160130 15 (-13))
  = true /\
  (Qabs (Double.to_Q unit.darcy - Double.lit_Q 9869232667160130 15 (-13))
   * inject_Z (10 ^ 12)
   <= Double.lit_Q 9869232667160130 15 (-13))%Q /\
  (Qabs (Double.to_Q unit.darcy - Double.lit_Q 9869232667160130 15 (-13))
   * inject_Z (10 ^ 15)
   <= Double.lit_Q 9869232667160130 15 (-13))%Q.
Proof.
  do 9 (split; [ by_computation | ]).
  split; apply Qle_bool_iff; by_computation.
Qed.

(** C3: the constant [feet] of the table, [12 * inch], which is the double
    [0.3048], differs from the constant [FEET = 0.30479999798832] of the
    second group; [FEET] is the smaller one. *)
Theorem feet_differs_from_FEET :
  Double.eqb unit.feet units.FEET = false /\
  unit.feet <> units.FEET /\
  unit.feet = (Double.of_int 12 * unit.inch)%num /\
  unit.feet = Double.lit 3048 4 0 /\
  units.FEET = Double.lit 30479999798832 14 0 /\
  SFltb units.FEET unit.feet = true.
Proof.
  split; [ by_computation | ].
  split.
  { intros H.
    assert (E : Double.eqb unit.feet units.FEET = false) by by_computation.
    rewrite H in E. revert E. vm_compute. discriminate. }
  do 3 (split; [ by_computation | ]). by_computation.
Qed.

(** C4: [meter], [second] and [kilogram] are the double [1.0];
    [from(1.0, u) == 1.0] for each of them, and more generally [from(q, u)]
    returns [q] itself for every quantity [q]. *)
Theorem base_units_identity :
  unit.meter = Double.lit 10 1 0 /\
  unit.second = Double.lit 10 1 0 /\
  unit.kilogram = Double.lit 10 1 0 /\
  Double.eqb (unit.convert.from (Double.lit 10 1 0) unit.meter)
             (Double.lit 10 1 0) = true /\
  Double.eqb (unit.convert.from (Double.lit 10 1 0) unit.second)
             (Double.lit 10 1 0) = true /\
  Double.eqb (unit.convert.from (Double.lit 10 1 0) unit.kilogram)
             (Double.lit 10 1 0) = true /\
  (forall q : double,
      Double.valid q ->
      unit.convert.from q unit.meter = q /\
      unit.convert.from q unit.second = q /\
      unit.convert.from q unit.kilogram = q).
Proof.
  do 6 (split; [ by_computation | ]).
  intros q Hq.
  assert (Hm : unit.meter = Double.one) by by_computation.
  assert (Hs : unit.second = Double.one) by by_computation.
  assert (Hk : unit.kilogram = Double.one) by by_computation.
  rewrite Hm, Hs, Hk. auto using from_one.
Qed.

Lemma base_units_identity_witness :
  unit.convert.from unit.darcy unit.meter = unit.darcy.
Proof.
  apply (proj2 (proj2 (proj2 (proj2 (proj2 (proj2 base_units_identity)))))).
  vm_compute. reflexivity.
Defined.

(** C5 (as stated, refuted): [to(q, unit)] is infinite although [unit] is
    not zero: [1e308] is a finite quantity, [micro] a non-zero constant of
    the table, and the quotient overflows to [+infinity]. *)
Lemma to_overflows_with_nonzero_unit :
  In ("micro", prefix.micro) table /\
  Double.is_zero prefix.micro = false /\
  Double.is_finite (Double.lit 1 0 308) = true /\
  unit.convert.to (Double.lit 1 0 308) prefix.micro = S754_infinity false.
Proof.
  split; [ in_table | ].
  do 2 (split; [ by_computation | ]). by_computation.
Qed.

(** C5 (amended): no constant of the table (nor of the second group) is
    zero: each is a finite, strictly positive double.  Hence [to(q, u)]
    with [u] from the table never divides by zero, and it is a NaN only
    when [q] is one. *)
Theorem to_table_unit_nonzero (n : string) (u q : double) :
  In (n, u) (table ++ units_table) ->
  Double.is_nan q = false ->
  Double.is_pos_finite u = true /\
  Double.is_zero u = false /\
  Double.is_nan (unit.convert.to q u) = false.
Proof.
  intros Hu Hq.
  pose proof (proj1 (Forall_forall _ _) table_pos_finite (n, u) Hu) as Hp.
  cbn [snd] in Hp.
  split; [ exact Hp | ].
  destruct u as [s | s | | s m e]; try discriminate Hp.
  split; [ reflexivity | ].
  destruct (Double.is_nan (unit.convert.to q (S754_finite s m e))) eqn:E;
    [ | reflexivity ].
  apply div_nan_inv in E.
  destruct E as [E | [E | [[_ E] | [_ E]]]];
    [ congruence | discriminate E | discriminate E | discriminate E ].
Qed.

Lemma to_table_unit_nonzero_witness :
  Double.is_pos_finite prefix.micro = true /\
  Double.is_zero prefix.micro = false /\
  Double.is_nan (unit.convert.to (Double.lit 1 0 308) prefix.micro) = false.
Proof.
  apply (to_table_unit_nonzero "micro" prefix.micro (Double.lit 1 0 308)).
  - cbv [table prefix_table unit_table scratch_table units_table app In].
    left. reflexivity.
  - vm_compute. reflexivity.
Defined.

(** C6: the chain from mass to pressure holds numerically:
    [psia == lbf / square(inch)], [lbf == pound * gravity],
    [pound == 0.45359237 * kilogram] and
    [gravity == 9.80665 * meter / square(second)]; the four constants are
    the doubles [6894.75729316836], [4.4482216152605], [0.45359237] and
    [9.80665]. *)
Theorem pressure_force_chain :
  Double.eqb unit.psia (unit.lbf / unit.square unit.inch)%num = true /\
  Double.eqb unit.lbf (unit.pound * unit.gravity)%num = true /\
  Double.eqb unit.pound (Double.lit 45359237 8 0 * unit.kilogram)%num
  = true /\
  Double.eqb unit.gravity
    (Double.lit 980665 5 0 * unit.meter / unit.square unit.second)%num
  = true /\
  unit.psia = Double.lit 689475729316836 11 0 /\
  unit.lbf = Double.lit 44482216152605 13 0 /\
  unit.pound = Double.lit 45359237 8 0 /\
  unit.gravity = Double.lit 980665 5 0.
Proof.
  do 7 (split; [ by_computation | ]). by_computation.
Qed.

(** C7: [Newton = kilogram * meter / square(second)],
    [Pascal = Newton / square(meter)] and [Pas = Pascal * second] are each
    exactly the double [1.0]. *)
Theorem si_derived_units_are_one :
  unit.Newton = Double.lit 10 1 0 /\
  unit.Pascal = Double.lit 10 1 0 /\
  unit.Pas = Double.lit 10 1 0 /\
  Double.eqb unit.Newton (Double.lit 10 1 0) = true /\
  Double.eqb unit.Pascal (Double.lit 10 1 0) = true /\
  Double.eqb unit.Pas (Double.lit 10 1 0) = true /\
  Double.eqb unit.Newton
    (unit.kilogram * unit.meter / unit.square unit.second)%num = true /\
  Double.eqb unit.Pascal (unit.Newton / unit.square unit.meter)%num = true /\
  Double.eqb unit.Pas (unit.Pascal * unit.second)%num = true.
Proof.
  do 8 (split; [ by_computation | ]). by_computation.
Qed.

(** C8 (as stated, refuted): [inch], computed as [2.54 * centi * meter],
    does not compare equal to the double [0.0254]. *)
Lemma inch_differs_from_literal :
  Double.eqb unit.inch (Double.lit 254 4 0) = false /\
  Double.eqb (Double.lit 254 2 0 * prefix.centi * unit.meter)%num
             (Double.lit 254 4 0) = false.
Proof. split; by_computation. Qed.

(** C8 (amended): [inch == 2.54 * centi * meter], which is the double just
    above [0.0254] (the product [2.54 * 1.0e-2] is rounded upwards, so the
    two values differ by one unit in the last place); [feet == 12 * inch]
    exactly, and [feet] is the double [0.3048]. *)
Theorem inch_feet_values :
  Double.eqb unit.inch
    (Double.lit 254 2 0 * prefix.centi * unit.meter)%num = true /\
  Double.lit 254 4 0 = S754_finite false 7321051554253478 (-58) /\
  unit.inch = S754_finite false 7321051554253479 (-58) /\
  unit.inch = SFsucc Double.prec Double.emax (Double.lit 254 4 0) /\
  Double.eqb unit.feet (Double.of_int 12 * unit.inch)%num = true /\
  unit.feet = Double.lit 3048 4 0 /\
  Double.eqb unit.feet (Double.lit 3048 4 0) = true.
Proof.
  do 6 (split; [ by_computation | ]). by_computation.
Qed.

(** C9: whatever the numeric type, [square(v)] is [v * v] and [cubic(v)]
    is [v * v * v]; both are total functions of their argument.  On
    doubles, [square(3.0) == 9.0], [cubic(2.0) == 8.0] and
    [square(-2.0) == 4.0]; [square(v)] and [cubic(v)] are a NaN only when
    [v] is, and the comparisons [square(v) == v * v] and
    [cubic(v) == v * v * v] hold for every [v] that is not a NaN. *)
Theorem square_cubic_spec :
  (forall (T : Type) (N : Numeric T) (v : T),
      unit.square v = (v * v)%num /\
      unit.cubic v = (v * v * v)%num) /\
  Double.eqb (unit.square (Double.lit 30 1 0)) (Double.lit 90 1 0) = true /\
  Double.eqb (unit.cubic (Double.lit 20 1 0)) (Double.lit 80 1 0) = true /\
  Double.eqb (unit.square (Double.opp (Double.lit 20 1 0)))
             (Double.lit 40 1 0) = true /\
  (forall v : double,
      Double.is_nan (unit.square v) = Double.is_nan v /\
      Double.is_nan (unit.cubic v) = Double.is_nan v) /\
  (forall v : double,
      Double.eqb (unit.square v) (v * v)%num = negb (Double.is_nan v) /\
      Double.eqb (unit.cubic v) (v * v * v)%num = negb (Double.is_nan v)).
Proof.
  split; [ intros T N v; split; reflexivity | ].
  do 3 (split; [ by_computation | ]).
  split; intros v.
  - split; [ apply mul_self_nan | apply cubic_nan ].
  - split.
    + change (Double.eqb (Double.mul v v) (Double.mul v v)
              = negb (Double.is_nan v)).
      now rewrite eqb_self, mul_self_nan.
    + change (Double.eqb (Double.mul (Double.mul v v) v)
                         (Double.mul (Double.mul v v) v)
              = negb (Double.is_nan v)).
      now rewrite eqb_self, cubic_nan.
Qed.

(** C10: the two groups agree on the day: [day], that is
    [24 * (60 * (60 * second))], and [DAYS2SECONDS] are both the double
    [86400] (as is [24 * 60 * 60 * second]), while they disagree on feet;
    and [WELL_INDEX_UNIT == VISCOSITY_UNIT / (DAYS2SECONDS * 1e5)], which is
    [1e-3 / 8.64e9]. *)
Theorem day_agrees_with_DAYS2SECONDS :
  unit.day = Double.of_int 86400 /\
  units.DAYS2SECONDS = Double.of_int 86400 /\
  Double.eqb unit.day units.DAYS2SECONDS = true /\
  Double.eqb unit.day
    (Double.of_int 24 * Double.of_int 60 * Double.of_int 60 * unit.second)%num
  = true /\
  Double.eqb unit.feet units.FEET = false /\
  Double.eqb units.WELL_INDEX_UNIT
    (units.VISCOSITY_UNIT / (units.DAYS2SECONDS * Double.lit 1 0 5))%num
  = true /\
  (units.DAYS2SECONDS * Double.lit 1 0 5)%num = Double.lit 864 2 9 /\
  Double.eqb units.WELL_INDEX_UNIT
    (Double.lit 1 0 (-3) / Double.lit 864 2 9)%num = true.
Proof.
  do 7 (split; [ by_computation | ]). by_computation.
Qed.


(** * Further properties *)

Local Open Scope Z_scope.

(** ** Signs *)

Section Signs.

Lemma binary_round_aux_opp (s : bool) (m e : Z) (l : location) :
  binary_round_aux Double.prec Double.emax (negb s) m e l
  = SFopp (binary_round_aux Double.prec Double.emax s m e l).
Proof.
  unfold binary_round_aux.
  destruct (shr_fexp Double.prec Double.emax m e l) as [mrs1 e1].
  destruct (shr_fexp Double.prec Double.emax _ e1 loc_Exact) as [mrs2 e2].
  destruct (shr_m mrs2) as [ | p | p ]; try reflexivity.
  destruct (e2 <=? Double.emax - Double.prec)%Z; reflexivity.
Qed.

Lemma binary_round_aux_sign (s : bool) (m e : Z) (l : location) :
  0 <= m ->
  Double.sign (binary_round_aux Double.prec Double.emax s m e l) = s.
Proof.
  intros Hm.
  pose proof (binary_round_aux_not_nan s m e l Hm) as Hn.
  revert Hn. unfold binary_round_aux.
  destruct (shr_fexp Double.prec Double.emax m e l) as [mrs1 e1].
  destruct (shr_fexp Double.prec Double.emax _ e1 loc_Exact) as [mrs2 e2].
  destruct (shr_m mrs2) as [ | p | p ]; try reflexivity.
  - destruct (e2 <=? Double.emax - Double.prec)%Z; reflexivity.
  - discriminate.
Qed.

Lemma mul_opp_l (x y : double) :
  Double.mul (Double.opp x) y = Double.opp (Double.mul x y).
Proof.
  unfold Double.mul, Double.opp.
  destruct x as [sx | sx | | sx mx ex], y as [sy | sy | | sy my ey];
    cbn [SFmul SFopp]; rewrite <- ?negb_xorb_l; try reflexivity.
  apply binary_round_aux_opp.
Qed.

Lemma mul_opp_r (x y : double) :
  Double.mul x (Double.opp y) = Double.opp (Double.mul x y).
Proof.
  unfold Double.mul, Double.opp.
  destruct x as [sx | sx | | sx mx ex], y as [sy | sy | | sy my ey];
    cbn [SFmul SFopp]; rewrite <- ?negb_xorb_r; try reflexivity.
  apply binary_round_aux_opp.
Qed.

Lemma div_opp_l (x y : double) :
  Double.div (Double.opp x) y = Double.opp (Double.div x y).
Proof.
  unfold Double.div, Double.opp.
  destruct x as [sx | sx | | sx mx ex], y as [sy | sy | | sy my ey];
    cbn [SFdiv SFopp]; rewrite <- ?negb_xorb_l; try reflexivity.
  destruct (SFdiv_core_binary Double.prec Double.emax
              (Zpos mx) ex (Zpos my) ey) as [[mz ez] lz].
  apply binary_round_aux_opp.
Qed.

Lemma div_opp_r (x y : double) :
  Double.div x (Double.opp y) = Double.opp (Double.div x y).
Proof.
  unfold Double.div, Double.opp.
  destruct x as [sx | sx | | sx mx ex], y as [sy | sy | | sy my ey];
    cbn [SFdiv SFopp]; rewrite <- ?negb_xorb_r; try reflexivity.
  destruct (SFdiv_core_binary Double.prec Double.emax
              (Zpos mx) ex (Zpos my) ey) as [[mz ez] lz].
  apply binary_round_aux_opp.
Qed.

Lemma mul_comm (x y : double) : Double.mul x y = Double.mul y x.
Proof.
  unfold Double.mul.
  destruct x as [sx | sx | | sx mx ex], y as [sy | sy | | sy my ey];
    cbn [SFmul]; rewrite ?(xorb_comm sx sy); try reflexivity.
  rewrite (Pos.mul_comm mx my), (Z.add_comm ex ey). reflexivity.
Qed.

(** The sign of a product and of a quotient of two numbers, when the result
    is not a NaN. *)
Lemma mul_sign (x y : double) :
  Double.is_nan (Double.mul x y) = false ->
  Double.sign (Double.mul x y) = xorb (Double.sign x) (Double.sign y).
Proof.
  unfold Double.mul.
  destruct x as [sx | sx | | sx mx ex], y as [sy | sy | | sy my ey];
    cbn [SFmul Double.sign Double.is_nan]; try reflexivity;
    try discriminate.
  intros _. apply binary_round_aux_sign. lia.
Qed.

Lemma div_sign (x y : double) :
  Double.is_nan (Double.div x y) = false ->
  Double.sign (Double.div x y) = xorb (Double.sign x) (Double.sign y).
Proof.
  unfold Double.div.
  destruct x as [sx | sx | | sx mx ex], y as [sy | sy | | sy my ey];
    cbn [SFdiv Double.sign Double.is_nan]; try reflexivity;
    try discriminate.
  intros _.
  pose proof (div_core_nonneg mx my ex ey) as Hq.
  destruct (SFdiv_core_binary Double.prec Double.emax
              (Zpos mx) ex (Zpos my) ey) as [[mz ez] lz].
  apply binary_round_aux_sign. exact Hq.
Qed.

End Signs.

(** ** Whole numbers *)

Section Integers.

Lemma digits2_pos_bounds (m : positive) :
  2 ^ (Zpos (digits2_pos m) - 1) <= Zpos m < 2 ^ Zpos (digits2_pos m).
Proof.
  induction m as [m IH | m IH | ]; cbn [digits2_pos].
  - rewrite Pos2Z.inj_succ, (Pos2Z.inj_xI m).
    replace (Z.succ (Zpos (digits2_pos m)) - 1)
      with (Z.succ (Zpos (digits2_pos m) - 1)) by lia.
    rewrite !Z.pow_succ_r by lia.
    revert IH. generalize (2 ^ (Zpos (digits2_pos m) - 1)).
    generalize (2 ^ Zpos (digits2_pos m)). intros; lia.
  - rewrite Pos2Z.inj_succ, (Pos2Z.inj_xO m).
    replace (Z.succ (Zpos (digits2_pos m)) - 1)
      with (Z.succ (Zpos (digits2_pos m) - 1)) by lia.
    rewrite !Z.pow_succ_r by lia.
    revert IH. generalize (2 ^ (Zpos (digits2_pos m) - 1)).
    generalize (2 ^ Zpos (digits2_pos m)). intros; lia.
  - simpl. lia.
Qed.

Lemma digits2_pos_le (m : positive) (d : Z) :
  Zpos m < 2 ^ d -> Zpos (digits2_pos m) <= d.
Proof.
  intros H. pose proof (digits2_pos_bounds m) as [Hl _].
  destruct (Z_le_gt_dec (Zpos (digits2_pos m)) d) as [ | Hgt ]; trivial.
  exfalso.
  assert (2 ^ d <= 2 ^ (Zpos (digits2_pos m) - 1))
    by (apply Z.pow_le_mono_r; lia).
  lia.
Qed.

Lemma digits2_pos_mul (a b : positive) :
  Zpos (digits2_pos a) + Zpos (digits2_pos b) - 1
  <= Zpos (digits2_pos (a * b))
  <= Zpos (digits2_pos a) + Zpos (digits2_pos b).
Proof.
  pose proof (digits2_pos_bounds a) as [Ha1 Ha2].
  pose proof (digits2_pos_bounds b) as [Hb1 Hb2].
  pose proof (digits2_pos_bounds (a * b)) as [Hc1 Hc2].
  rewrite Pos2Z.inj_mul in Hc1, Hc2.
  set (da := Zpos (digits2_pos a)) in *.
  set (db := Zpos (digits2_pos b)) in *.
  set (dc := Zpos (digits2_pos (a * b))) in *.
  assert (Pa : 0 < da) by (subst da; lia).
  assert (Pb : 0 < db) by (subst db; lia).
  assert (Pc : 0 < dc) by (subst dc; lia).
  assert (Qa : 0 < 2 ^ (da - 1)) by (apply Z.pow_pos_nonneg; lia).
  assert (Qb : 0 < 2 ^ (db - 1)) by (apply Z.pow_pos_nonneg; lia).
  split.
  - assert (L : 2 ^ (da - 1 + (db - 1)) < 2 ^ dc).
    { rewrite Z.pow_add_r by lia. nia. }
    apply Z.pow_lt_mono_r_iff in L; lia.
  - assert (L : 2 ^ (dc - 1) < 2 ^ (da + db)).
    { rewrite Z.pow_add_r by lia. nia. }
    apply Z.pow_lt_mono_r_iff in L; lia.
Qed.

Lemma shl_pos_add (m : positive) (i j : nat) :
  Double.shl_pos (Double.shl_pos m i) j = Double.shl_pos m (j + i).
Proof.
  induction j as [ | j IH ]; cbn [Double.shl_pos Nat.add]; congruence.
Qed.

Lemma shl_pos_iter (m k : positive) :
  Pos.iter xO m k = Double.shl_pos m (Pos.to_nat k).
Proof.
  rewrite Pos2Nat.inj_iter.
  induction (Pos.to_nat k) as [ | n IH ]; cbn [Nat.iter nat_rect Double.shl_pos];
    [ reflexivity | ].
  simpl. f_equal. exact IH.
Qed.

Lemma round_canonical (s : bool) (m : positive) (e : Z) :
  bounded Double.prec Double.emax m e = true ->
  binary_round_aux Double.prec Double.emax s (Zpos m) e loc_Exact
  = S754_finite s m e.
Proof.
  intros H. pose proof (round_shl_pos s m e 0 H) as R.
  cbn [Double.shl_pos Z.of_nat] in R. rewrite Z.sub_0_r in R. exact R.
Qed.

Lemma of_pos_digits (a : positive) :
  Zpos a < 2 ^ 53 ->
  Zpos (digits2_pos
          (Double.shl_pos a (Z.to_nat (53 - Zpos (digits2_pos a))))) = 53.
Proof.
  intros H. apply digits2_pos_le in H.
  rewrite digits2_shl_pos, Z2Nat.id by lia. lia.
Qed.

Lemma of_pos_bounded (a : positive) :
  Zpos a < 2 ^ 53 ->
  bounded Double.prec Double.emax
    (Double.shl_pos a (Z.to_nat (53 - Zpos (digits2_pos a))))
    (Zpos (digits2_pos a) - 53) = true.
Proof.
  intros H. unfold bounded, canonical_mantissa.
  rewrite (of_pos_digits a H).
  apply digits2_pos_le in H.
  apply andb_true_iff. split.
  - apply Z.eqb_eq. unfold fexp, emin, Double.prec, Double.emax. lia.
  - apply Z.leb_le. unfold Double.prec, Double.emax. lia.
Qed.

Lemma binary_round_whole (s : bool) (a : positive) :
  Zpos a < 2 ^ 53 ->
  binary_round Double.prec Double.emax s a 0 = Double.of_pos s a.
Proof.
  intros H. pose proof (of_pos_bounded a H) as Hb.
  pose proof (digits2_pos_le a 53 H) as Hd.
  unfold binary_round, shl_align, Double.of_pos in *.
  assert (E : fexp Double.prec Double.emax (Zpos (digits2_pos a) + 0)
              = Zpos (digits2_pos a) - 53).
  { unfold fexp, emin, Double.prec, Double.emax. lia. }
  rewrite E. clear E.
  destruct (Zpos (digits2_pos a) - 53 - 0) as [ | k | k ] eqn:Ek.
  - assert (E : Zpos (digits2_pos a) = 53) by lia.
    rewrite E in *. cbn [Z.sub Z.add Z.opp Z.pos_sub Z.to_nat Double.shl_pos] in *.
    apply round_canonical, Hb.
  - lia.
  - rewrite shl_pos_iter.
    assert (E : Z.to_nat (53 - Zpos (digits2_pos a)) = Pos.to_nat k) by lia.
    rewrite E in *.
    apply round_canonical, Hb.
Qed.

Lemma of_int_whole (n : Z) :
  Z.abs n < 2 ^ 53 ->
  Double.of_int n
  = match n with
    | Z0 => S754_zero false
    | Zpos a => Double.of_pos false a
    | Zneg a => Double.of_pos true a
    end.
Proof.
  unfold Double.of_int, binary_normalize.
  destruct n as [ | a | a ]; intros H; [ reflexivity | | ];
    apply binary_round_whole; lia.
Qed.

End Integers.

Section WholeArithmetic.

Lemma mul_of_pos (sa sb : bool) (a b : positive) :
  Zpos (a * b) < 2 ^ 53 ->
  Double.mul (Double.of_pos sa a) (Double.of_pos sb b)
  = Double.of_pos (xorb sa sb) (a * b).
Proof.
  intros H.
  assert (Ha : Zpos a < 2 ^ 53) by (rewrite Pos2Z.inj_mul in H; nia).
  assert (Hb : Zpos b < 2 ^ 53) by (rewrite Pos2Z.inj_mul in H; nia).
  pose proof (digits2_pos_le a 53 Ha) as Da.
  pose proof (digits2_pos_le b 53 Hb) as Db.
  pose proof (digits2_pos_le (a * b) 53 H) as Dc.
  pose proof (digits2_pos_mul a b) as [Dl Du].
  pose proof (of_pos_bounded (a * b) H) as Bc.
  unfold Double.mul, Double.of_pos in *. cbn [SFmul].
  set (da := Zpos (digits2_pos a)) in *.
  set (db := Zpos (digits2_pos b)) in *.
  set (dc := Zpos (digits2_pos (a * b))) in *.
  set (n := Z.to_nat (53 - da - db + dc)).
  replace (Double.shl_pos a (Z.to_nat (53 - da))
           * Double.shl_pos b (Z.to_nat (53 - db)))%positive
    with (Double.shl_pos (Double.shl_pos (a * b) (Z.to_nat (53 - dc))) n).
  2:{ apply Pos2Z.inj.
      rewrite shl_pos_add, Pos2Z.inj_mul, !shl_pos_spec, Pos2Z.inj_mul.
      replace (Z.of_nat (n + Z.to_nat (53 - dc)))
        with (Z.of_nat (Z.to_nat (53 - da)) + Z.of_nat (Z.to_nat (53 - db)))
        by (subst n; lia).
      rewrite Z.pow_add_r by lia. ring. }
  replace (da - 53 + (db - 53)) with (dc - 53 - Z.of_nat n)
    by (subst n; lia).
  apply round_shl_pos, Bc.
Qed.

Lemma div_of_pos (s1 s2 : bool) (n k : positive) :
  Zpos (n * k) < 2 ^ 53 ->
  Double.div (Double.of_pos s1 (n * k)) (Double.of_pos s2 k)
  = Double.of_pos (xorb s1 s2) n.
Proof.
  intros H.
  assert (Hn : Zpos n < 2 ^ 53) by (rewrite Pos2Z.inj_mul in H; nia).
  assert (Hk : Zpos k < 2 ^ 53) by (rewrite Pos2Z.inj_mul in H; nia).
  pose proof (digits2_pos_le n 53 Hn) as Dn.
  pose proof (digits2_pos_le k 53 Hk) as Dk.
  pose proof (digits2_pos_le (n * k) 53 H) as Dc.
  pose proof (digits2_pos_mul n k) as [Dl Du].
  pose proof (of_pos_bounded n Hn) as Bn.
  pose proof (of_pos_digits (n * k) H) as Gc.
  pose proof (of_pos_digits k Hk) as Gk.
  unfold Double.div, Double.of_pos in *. cbn [SFdiv].
  unfold SFdiv_core_binary. cbn [Zdigits2]. rewrite Gc, Gk.
  set (dn := Zpos (digits2_pos n)) in *.
  set (dk := Zpos (digits2_pos k)) in *.
  set (dc := Zpos (digits2_pos (n * k))) in *.
  assert (Pn : 0 < dn) by (subst dn; lia).
  set (e' := Z.min _ _).
  assert (He' : e' = dc - dk - 53).
  { subst e'. unfold fexp, emin, Double.prec, Double.emax. lia. }
  rewrite He'.
  replace (dc - 53 - (dk - 53) - (dc - dk - 53)) with 53 by lia.
  cbv iota. rewrite Z.shiftl_mul_pow2 by lia.
  set (j := Z.to_nat (dn - dc + dk)).
  replace (Zpos (Double.shl_pos (n * k) (Z.to_nat (53 - dc))) * 2 ^ 53)
    with (Zpos (Double.shl_pos (Double.shl_pos n (Z.to_nat (53 - dn))) j)
          * Zpos (Double.shl_pos k (Z.to_nat (53 - dk)))).
  2:{ rewrite shl_pos_add, !shl_pos_spec, Pos2Z.inj_mul.
      replace (2 ^ 53) with (2 ^ Z.of_nat 53) by reflexivity.
      rewrite <- !Z.mul_assoc. f_equal.
      rewrite (Z.mul_comm (2 ^ _) (Zpos k * _)), <- !Z.mul_assoc. f_equal.
      rewrite <- !Z.pow_add_r by lia. f_equal. subst j. lia. }
  rewrite div_eucl_mul by lia.
  replace (new_location (Zpos (Double.shl_pos k (Z.to_nat (53 - dk)))) 0)
    with loc_Exact
    by (unfold new_location; destruct (Z.even _); reflexivity).
  replace (dc - dk - 53) with (dn - 53 - Z.of_nat j) by (subst j; lia).
  apply round_shl_pos, Bn.
Qed.

End WholeArithmetic.

(** ** Rows of the table *)

Lemma same_eq (x y : double) : Double.same x y = true -> x = y.
Proof.
  destruct x as [s | s | | s m e], y as [s' | s' | | s' m' e'];
    cbn [Double.same]; try discriminate; intros H.
  - apply eqb_prop in H. congruence.
  - apply eqb_prop in H. congruence.
  - reflexivity.
  - apply andb_true_iff in H. destruct H as [H He].
    apply andb_true_iff in H. destruct H as [Hs Hm].
    apply eqb_prop in Hs. apply Pos.eqb_eq in Hm. apply Z.eqb_eq in He.
    congruence.
Qed.

Lemma has_row_In (t : list (string * double)) (name : string) (x : double) :
  has_row t name x = true -> In (name, x) t.
Proof.
  unfold has_row. intros H. apply existsb_exists in H.
  destruct H as [[n u] [Hin H]]. cbn [fst snd] in H.
  apply andb_true_iff in H. destruct H as [Hn Hu].
  apply String.eqb_eq in Hn. apply same_eq in Hu. congruence.
Qed.

Lemma table_row_pos_finite (name : string) (u : double) :
  In (name, u) (table ++ units_table) -> Double.is_pos_finite u = true.
Proof.
  intros H.
  exact (proj1 (Forall_forall _ _) table_pos_finite (name, u) H).
Qed.

(** ** A strictly positive finite unit *)

Section PositiveUnit.

Variable u : double.
Hypothesis Hu : Double.is_pos_finite u = true.

Lemma mul_pos_finite_nan (q : double) :
  Double.is_nan (Double.mul q u) = Double.is_nan q.
Proof.
  destruct u as [s | s | | [ | ] m e]; try discriminate Hu.
  destruct (Double.is_nan q) eqn:Hq.
  - destruct q; try discriminate Hq. reflexivity.
  - destruct (Double.is_nan (Double.mul q (S754_finite false m e))) eqn:E;
      [ | reflexivity ].
    apply mul_nan_inv in E.
    destruct E as [E | [E | [[_ E] | [_ E]]]];
      [ congruence | discriminate E | discriminate E | discriminate E ].
Qed.

Lemma div_pos_finite_nan (q : double) :
  Double.is_nan (Double.div q u) = Double.is_nan q.
Proof.
  destruct u as [s | s | | [ | ] m e]; try discriminate Hu.
  destruct (Double.is_nan q) eqn:Hq.
  - destruct q; try discriminate Hq. reflexivity.
  - destruct (Double.is_nan (Double.div q (S754_finite false m e))) eqn:E;
      [ | reflexivity ].
    apply div_nan_inv in E.
    destruct E as [E | [E | [[_ E] | [_ E]]]];
      [ congruence | discriminate E | discriminate E | discriminate E ].
Qed.

Lemma mul_pos_finite_sign (q : double) :
  Double.is_nan q = false -> Double.sign (Double.mul q u) = Double.sign q.
Proof.
  intros Hq. rewrite mul_sign by (now rewrite mul_pos_finite_nan).
  destruct u as [s | s | | [ | ] m e]; try discriminate Hu.
  apply xorb_false_r.
Qed.

Lemma div_pos_finite_sign (q : double) :
  Double.is_nan q = false -> Double.sign (Double.div q u) = Double.sign q.
Proof.
  intros Hq. rewrite div_sign by (now rewrite div_pos_finite_nan).
  destruct u as [s | s | | [ | ] m e]; try discriminate Hu.
  apply xorb_false_r.
Qed.

Lemma mul_div_pos_finite_extremes (q : double) :
  Double.is_zero q || Double.is_inf q = true ->
  Double.mul q u = q /\ Double.div q u = q.
Proof.
  destruct u as [s | s | | [ | ] m e]; try discriminate Hu.
  unfold Double.mul, Double.div.
  destruct q as [sq | sq | | sq mq eq]; cbn; try discriminate; intros _;
    rewrite xorb_false_r; split; reflexivity.
Qed.

End PositiveUnit.

(** ** Further properties of the conversions *)

(** X1: [from] and [to] are odd in the quantity and in the unit: negating
    either argument negates the result, whatever the two numbers are. *)
Theorem conversions_odd (q u : double) :
  unit.convert.from (Double.opp q) u = Double.opp (unit.convert.from q u) /\
  unit.convert.to (Double.opp q) u = Double.opp (unit.convert.to q u) /\
  unit.convert.from q (Double.opp u) = Double.opp (unit.convert.from q u) /\
  unit.convert.to q (Double.opp u) = Double.opp (unit.convert.to q u).
Proof.
  split; [ apply mul_opp_l | ].
  split; [ apply div_opp_l | ].
  split; [ apply mul_opp_r | apply div_opp_r ].
Qed.

(** X2: with a constant [u] of the table or of the second group,
    [from(q, u)] and [to(q, u)] are a NaN exactly when [q] is one. *)
Theorem conversions_nan (name : string) (u q : double) :
  In (name, u) (table ++ units_table) ->
  Double.is_nan (unit.convert.from q u) = Double.is_nan q /\
  Double.is_nan (unit.convert.to q u) = Double.is_nan q.
Proof.
  intros H. apply table_row_pos_finite in H.
  split; [ apply mul_pos_finite_nan | apply div_pos_finite_nan ]; exact H.
Qed.

Lemma conversions_nan_witness :
  Double.is_nan (unit.convert.from S754_nan unit.psia) = true /\
  Double.is_nan (unit.convert.to S754_nan unit.psia) = true.
Proof.
  apply (conversions_nan "psia" unit.psia S754_nan).
  cbv [table prefix_table unit_table scratch_table units_table app In].
  do 23 right. left. reflexivity.
Defined.

(** X3: with a constant [u] of the table or of the second group, [from]
    and [to] keep the sign of the quantity: the result of converting a
    number (not a NaN) is negative exactly when the number is. *)
Theorem conversions_keep_sign (name : string) (u q : double) :
  In (name, u) (table ++ units_table) ->
  Double.is_nan q = false ->
  Double.sign (unit.convert.from q u) = Double.sign q /\
  Double.sign (unit.convert.to q u) = Double.sign q.
Proof.
  intros H Hq. apply table_row_pos_finite in H.
  split; [ apply mul_pos_finite_sign | apply div_pos_finite_sign ];
    assumption.
Qed.

Lemma conversions_keep_sign_witness :
  Double.sign (unit.convert.from (Double.lit (-15) 1 0) unit.darcy) = true /\
  Double.sign (unit.convert.to (Double.lit (-15) 1 0) unit.darcy) = true.
Proof.
  apply (conversions_keep_sign "darcy" unit.darcy (Double.lit (-15) 1 0)).
  - cbv [table prefix_table unit_table scratch_table units_table app In].
    do 26 right. left. reflexivity.
  - vm_compute. reflexivity.
Defined.

(** X4: with a constant [u] of the table or of the second group, zeros and
    infinities are fixed points of both conversions: [from(q, u)] and
    [to(q, u)] return [q] itself, sign included, when [q] is [+0], [-0],
    [+infinity] or [-infinity]. *)
Theorem conversions_fix_zero_and_infinity (name : string) (u q : double) :
  In (name, u) (table ++ units_table) ->
  Double.is_zero q || Double.is_inf q = true ->
  unit.convert.from q u = q /\ unit.convert.to q u = q.
Proof.
  intros H Hq. apply table_row_pos_finite in H.
  exact (mul_div_pos_finite_extremes u H q Hq).
Qed.

Lemma conversions_fix_zero_and_infinity_witness :
  unit.convert.from (S754_zero true) unit.feet = S754_zero true /\
  unit.convert.to (S754_zero true) unit.feet = S754_zero true.
Proof.
  apply (conversions_fix_zero_and_infinity "feet" unit.feet (S754_zero true)).
  - cbv [table prefix_table unit_table scratch_table units_table app In].
    do 9 right. left. reflexivity.
  - vm_compute. reflexivity.
Defined.

(** X5: for the six constants of the table that are [1.0] ([meter],
    [second], [kilogram], [Newton], [Pascal], [Pas]) both conversions are
    the identity: [from(q, u)] and [to(q, u)] return [q] for every
    double [q]. *)
Theorem unit_valued_conversions_identity (name : string) (u q : double) :
  In (name, u) table ->
  In name unit_valued ->
  Double.valid q ->
  unit.convert.from q u = q /\ unit.convert.to q u = q.
Proof.
  intros Hu Hn Hq.
  assert (T : forallb
                (fun nu => implb (existsb (String.eqb (fst nu)) unit_valued)
                                 (Double.same (snd nu) Double.one))
                table = true) by by_computation.
  pose proof (proj1 (forallb_forall _ _) T (name, u) Hu) as E.
  cbn [fst snd] in E.
  assert (X : existsb (String.eqb name) unit_valued = true).
  { apply existsb_exists. exists name. split; [ exact Hn | ].
    apply String.eqb_refl. }
  rewrite X in E. cbn [implb] in E. apply same_eq in E. subst u.
  split; [ apply from_one | apply to_one ]; exact Hq.
Qed.

Lemma unit_valued_conversions_identity_witness :
  unit.convert.from unit.psia unit.Pascal = unit.psia /\
  unit.convert.to unit.psia unit.Pascal = unit.psia.
Proof.
  apply (unit_valued_conversions_identity "Pascal" unit.Pascal unit.psia).
  - cbv [table prefix_table unit_table scratch_table units_table app In].
    do 20 right. left. reflexivity.
  - cbv [unit_valued In]. do 4 right. left. reflexivity.
  - vm_compute. reflexivity.
Defined.

Lemma whole_conversion_exact (n k : Z) :
  0 < k < 2 ^ 53 -> Z.abs n * k < 2 ^ 53 ->
  Double.mul (Double.of_int n) (Double.of_int k) = Double.of_int (n * k) /\
  Double.div (Double.of_int (n * k)) (Double.of_int k) = Double.of_int n.
Proof.
  intros Hk Hn.
  destruct k as [ | k | k ]; try lia.
  rewrite (of_int_whole n), (of_int_whole (Zpos k)), (of_int_whole (n * Zpos k))
    by nia.
  destruct n as [ | a | a ].
  - split; reflexivity.
  - change (Zpos a * Zpos k) with (Zpos (a * k)).
    split; [ apply (mul_of_pos false false) | apply (div_of_pos false false) ];
      exact Hn.
  - change (Zneg a * Zpos k) with (Zneg (a * k)).
    split; [ apply (mul_of_pos true false) | apply (div_of_pos true false) ];
      exact Hn.
Qed.

Lemma of_int_not_nan (n : Z) :
  Z.abs n < 2 ^ 53 -> Double.is_nan (Double.of_int n) = false.
Proof.
  intros H. rewrite of_int_whole by exact H. destruct n; reflexivity.
Qed.

(** X6: for the sixteen constants of the table that are whole numbers
    ([minute = 60], [hour = 3600], [day = 86400], [year = 31536000],
    [barsa], [atm], [kilo], [mega], [giga], ...), converting a whole
    quantity [n] is exact as long as [|n| * k < 2 ^ 53]: [from(n, u)] is the
    double [n * k], [to(n * k, u)] is the double [n], and the round trip
    [to(from(n, u), u) == n] holds. *)
Theorem whole_number_conversions_exact (name : string) (k n : Z) :
  In (name, k) integer_units ->
  Z.abs n * k < 2 ^ 53 ->
  exists u : double,
    In (name, u) table /\ u = Double.of_int k /\
    unit.convert.from (Double.of_int n) u = Double.of_int (n * k) /\
    unit.convert.to (Double.of_int (n * k)) u = Double.of_int n /\
    round_trip (Double.of_int n) u = true.
Proof.
  intros Hk Hn.
  assert (T : forallb
                (fun r => has_row table (fst r) (Double.of_int (snd r))
                          && (0 <? snd r) && (snd r <? 2 ^ 53))
                integer_units = true) by by_computation.
  pose proof (proj1 (forallb_forall _ _) T (name, k) Hk) as E.
  cbn [fst snd] in E.
  apply andb_true_iff in E. destruct E as [E K2].
  apply andb_true_iff in E. destruct E as [R K1].
  apply Z.ltb_lt in K1, K2. apply has_row_In in R.
  destruct (whole_conversion_exact n k (conj K1 K2) Hn) as [M D].
  exists (Double.of_int k).
  split; [ exact R | ]. split; [ reflexivity | ].
  split; [ exact M | ]. split; [ exact D | ].
  unfold round_trip.
  change (Double.eqb
            (Double.div (Double.mul (Double.of_int n) (Double.of_int k))
                        (Double.of_int k))
            (Double.of_int n) = true).
  rewrite M, D. apply eqb_refl, of_int_not_nan. nia.
Qed.

Lemma whole_number_conversions_exact_witness :
  exists u : double,
    In ("day", u) table /\ u = Double.of_int 86400 /\
    unit.convert.from (Double.of_int (-365)) u
    = Double.of_int (-365 * 86400) /\
    unit.convert.to (Double.of_int (-365 * 86400)) u
    = Double.of_int (-365) /\
    round_trip (Double.of_int (-365)) u = true.
Proof.
  apply (whole_number_conversions_exact "day" 86400 (-365)).
  - cbv [integer_units In]. do 7 right. left. reflexivity.
  - vm_compute. reflexivity.
Defined.

(** X7: the defining expressions of the header, evaluated in binary64,
    are the constants of the table; evaluated in exact rational arithmetic
    they give the values the constants stand for.  Every constant of the
    table is within 2 units in the last place of that exact value; sixteen
    are exactly it; all others are correctly rounded (within half a unit)
    except [inch], [psia], [darcy], [flux] and [velocity]. *)
Theorem table_accuracy :
  rows_where (fun d d' => negb (Double.same d d'))
             table (header_table double) = [] /\
  map fst (header_table Q) = map fst table /\
  rows_where (fun d q => negb (Double.within_ulps 2 d q))
             table (header_table Q) = [] /\
  rows_where (Double.within_ulps 0) table (header_table Q)
  = map fst integer_units /\
  rows_where (fun d q => negb (Double.within_ulps (1 # 2) d q))
             table (header_table Q)
  = [ "inch"; "psia"; "darcy"; "flux"; "velocity" ].
Proof.
  do 4 (split; [ by_computation | ]). by_computation.
Qed.

(** X8: the comment of the header on [darcy], [== 1e-7 / 101325]: the
    defining expression of [darcy] is exactly [1e-7 / 101325] in rational
    arithmetic; the double [darcy] is within one unit in the last place of
    that value without being the nearest double, and it is the double
    just above the quotient [1e-7 / 101325] computed in binary64. *)
Theorem darcy_comment :
  match value_of "darcy" (header_table Q) with
  | Some r =>
      Qeq_bool r (Double.lit_Q 1 0 (-7) / inject_Z 101325)
      && Double.within_ulps 1 unit.darcy r
      && negb (Double.within_ulps (1 # 2) unit.darcy r)
  | None => false
  end = true /\
  Double.eqb unit.darcy (Double.lit 1 0 (-7) / Double.of_int 101325)%num
  = false /\
  unit.darcy
  = SFsucc Double.prec Double.emax
      (Double.lit 1 0 (-7) / Double.of_int 101325)%num.
Proof.
  do 2 (split; [ by_computation | ]). by_computation.
Qed.

(** X9: the second group against the table: [VISCOSITY_UNIT] is the
    centipoise of the table ([centi * Poise]); [MILLIDARCY] is not
    [milli * darcy] but smaller, the two agreeing to a relative difference
    between [2e-7] and [3e-7]; [FEET] is below [feet], by a relative
    difference under [1e-8]. *)
Theorem second_group_against_table :
  Double.eqb units.VISCOSITY_UNIT (prefix.centi * unit.Poise)%num = true /\
  Double.eqb units.MILLIDARCY (prefix.milli * unit.darcy)%num = false /\
  SFltb units.MILLIDARCY (prefix.milli * unit.darcy)%num = true /\
  Qle_bool
    ((Double.to_Q (prefix.milli * unit.darcy)%num
      - Double.to_Q units.MILLIDARCY) * inject_Z (10 ^ 7))
    (3 * Double.to_Q (prefix.milli * unit.darcy)%num) = true /\
  Qle_bool
    (2 * Double.to_Q (prefix.milli * unit.darcy)%num)
    ((Double.to_Q (prefix.milli * unit.darcy)%num
      - Double.to_Q units.MILLIDARCY) * inject_Z (10 ^ 7)) = true /\
  SFltb units.FEET unit.feet = true /\
  Qle_bool
    ((Double.to_Q unit.feet - Double.to_Q units.FEET) * inject_Z (10 ^ 8))
    (Double.to_Q unit.feet) = true.
Proof.
  do 6 (split; [ by_computation | ]). by_computation.
Qed.

(** X10: the round trip in the other direction, [from(to(q, u), u) == q]:
    it holds for every constant of the table and of the second group at
    [q = 0.0] and [q = 1e-6]; at [q = 1.0] and [q = -1.0] it fails for
    [inch] and [feet] only; at [q = 1e6] it fails for [minute], [pound] and
    [gravity] only; and for a unit equal to [1.0] it holds for every
    quantity that is not a NaN. *)
Theorem round_trip_back_table :
  map (fun q => round_trip_back_failures q (table ++ units_table))
      representatives
  = [ []; [ "inch"; "feet" ]; [ "inch"; "feet" ];
      [ "minute"; "pound"; "gravity" ]; [] ] /\
  (forall u q : double,
      Double.eqb u Double.one = true ->
      Double.valid q -> Double.is_nan q = false ->
      round_trip_back q u = true).
Proof.
  split; [ by_computation | ].
  intros u q Hu Hv Hq. apply eqb_one_inv in Hu. subst u.
  unfold round_trip_back.
  rewrite (to_one q Hv), (from_one q Hv). apply eqb_refl, Hq.
Qed.

Lemma round_trip_back_table_witness :
  round_trip_back unit.lbf unit.kilogram = true.
Proof.
  apply (proj2 round_trip_back_table).
  - vm_compute. reflexivity.
  - vm_compute. reflexivity.
  - vm_compute. reflexivity.
Defined.

(** X11: the prefixes compose: whenever the header has a constant for
    the power of ten that the product of two prefixes should be (for
    instance [kilo * milli == 1.0], [kilo * kilo == mega],
    [milli * milli == micro]), the product compares equal to it, with the
    single exception of [deci * deci], which is not [centi].  For
    quotients the exceptions are [milli / micro] (not [kilo]) and
    [centi / deci] (not [deci]). *)
Theorem prefixes_compose :
  prefix_mismatches Double.mul Z.add = [ ("deci", "deci") ] /\
  prefix_mismatches Double.div Z.sub
  = [ ("milli", "micro"); ("centi", "deci") ] /\
  Double.eqb (prefix.kilo * prefix.milli)%num (Double.lit 10 1 0) = true /\
  Double.eqb (prefix.kilo * prefix.kilo)%num prefix.mega = true /\
  Double.eqb (prefix.milli * prefix.milli)%num prefix.micro = true /\
  Double.eqb (prefix.deci * prefix.deci)%num prefix.centi = false.
Proof.
  do 5 (split; [ by_computation | ]). by_computation.
Qed.

(** X12: [from] is symmetric in its two arguments. *)
Theorem from_symmetric (q u : double) :
  unit.convert.from q u = unit.convert.from u q.
Proof. apply mul_comm. Qed.

(** ** Further properties of the powers *)

Lemma opp_involutive (x : double) : Double.opp (Double.opp x) = x.
Proof.
  destruct x as [s | s | | s m e]; cbn [Double.opp SFopp];
    rewrite ?negb_involutive; reflexivity.
Qed.

Lemma sign_opp (x : double) :
  Double.is_nan x = false ->
  Double.sign (Double.opp x) = negb (Double.sign x).
Proof. destruct x; try discriminate; reflexivity. Qed.

Lemma mul_opp_opp (x y : double) :
  Double.mul (Double.opp x) (Double.opp y) = Double.mul x y.
Proof. rewrite mul_opp_l, mul_opp_r. apply opp_involutive. Qed.

Lemma mul_self_sign (v : double) :
  Double.is_nan v = false -> Double.sign (Double.mul v v) = false.
Proof.
  intros Hv. rewrite mul_sign by (now rewrite mul_self_nan).
  apply xorb_nilpotent.
Qed.

(** X13: [square] is even and never negative: [square(-v)] is
    [square(v)] for every [v], and for every [v] that is not a NaN the
    sign bit of [square(v)] is clear (a square is never a negative number,
    nor [-0]). *)
Theorem square_even_nonnegative (v : double) :
  unit.square (Double.opp v) = unit.square v /\
  (Double.is_nan v = false -> Double.sign (unit.square v) = false).
Proof.
  split; [ apply mul_opp_opp | apply mul_self_sign ].
Qed.

Lemma square_even_nonnegative_witness :
  Double.sign (unit.square (Double.lit (-25) 1 0)) = false.
Proof.
  apply (proj2 (square_even_nonnegative (Double.lit (-25) 1 0))).
  vm_compute. reflexivity.
Defined.

(** X14: [cubic] is odd and keeps the sign: [cubic(-v)] is [-cubic(v)]
    for every [v], and for every [v] that is not a NaN the sign bit of
    [cubic(v)] is that of [v]. *)
Theorem cubic_odd_keeps_sign (v : double) :
  unit.cubic (Double.opp v) = Double.opp (unit.cubic v) /\
  (Double.is_nan v = false ->
   Double.sign (unit.cubic v) = Double.sign v).
Proof.
  change (Double.mul (Double.mul (Double.opp v) (Double.opp v)) (Double.opp v)
          = Double.opp (Double.mul (Double.mul v v) v) /\
          (Double.is_nan v = false ->
           Double.sign (Double.mul (Double.mul v v) v) = Double.sign v)).
  split.
  - rewrite mul_opp_opp. apply mul_opp_r.
  - intros Hv. pose proof (cubic_nan v) as N. rewrite Hv in N.
    rewrite mul_sign by exact N.
    rewrite (mul_self_sign v Hv). apply xorb_false_l.
Qed.

Lemma cubic_odd_keeps_sign_witness :
  Double.sign (unit.cubic (Double.lit (-25) 1 0))
  = Double.sign (Double.lit (-25) 1 0).
Proof.
  apply (proj2 (cubic_odd_keeps_sign (Double.lit (-25) 1 0))).
  vm_compute. reflexivity.
Defined.

(** X15: a zero unit is not rejected.  [to(q, 0)] is an infinity when [q]
    is a non-zero number and a NaN when [q] is zero; [from(q, 0)] is a zero
    when [q] is finite and a NaN when [q] is infinite; the sign of the
    result is the exclusive or of the two signs. *)
Theorem zero_unit (q : double) (s : bool) :
  unit.convert.to q (S754_zero s)
  = match q with
    | S754_nan | S754_zero _ => S754_nan
    | _ => S754_infinity (xorb (Double.sign q) s)
    end /\
  unit.convert.from q (S754_zero s)
  = match q with
    | S754_nan | S754_infinity _ => S754_nan
    | _ => S754_zero (xorb (Double.sign q) s)
    end.
Proof. destruct q as [sq | sq | | sq mq eq]; split; reflexivity. Qed.
